(** * Earth 3.0 board view: scoring, status and alert rules of [app.py]

    A shallow embedding of the computations of [src/app.py]:
    the composite index of [get_fake_orgs], the KPI aggregates
    ([global_index], [num_green], [num_red]), the map colouring
    [status_color] and the status column of [build_map], the entity
    selection [sel], the colours of the details panel, the lines and the
    drawing loop of the PDF snapshot, the columns of the simulated
    trend (its random draws taken as given), and the executive alerts
    loop with its panel.

    Numbers.  The program computes on pandas [float64] cells.  Two
    models of them are used.

    - The first definitions take a cell to be an exact rational or NaN
      ([float := option Q], [None] being NaN), with the NaN rules of
      pandas (a key that a record lacks becomes NaN, [mean] skips NaN,
      every comparison with NaN is false).  They serve the properties
      that depend on the order of the numbers only: bounds,
      monotonicity, the comparisons with the thresholds, counts, the
      alerts.  The rounding error of binary64 and the infinities are
      outside this model, so it does not say which digits an index has.

    - Module [B64] computes the index and the global index on IEEE 754
      binary64 itself (the Standard Library's [SpecFloat]), with
      infinities, NaN and text in place of a number.  The statements
      about the value of an index are made there. *)

From Stdlib Require Import QArith Qround Qabs Qminmax ZArith List String Ascii Bool.
From Stdlib Require Import Lia Lqa DecimalString SpecFloat Qpower.
Import ListNotations.

Local Open Scope Q_scope.

(** ** Exceptions *)

Inductive exn : Type :=
| KeyError (missing : list string)
| IndexError
| TypeError
| AttributeError.

Inductive result (A : Type) : Type :=
| Ok (a : A)
| Raise (e : exn).

Arguments Ok {A} a.
Arguments Raise {A} e.

(** ** Floats and their comparisons *)

Definition float : Type := option Q.
Definition NaN : float := None.

Definition Qlt_bool (x y : Q) : bool := negb (Qle_bool y x).

(** [x < c] and [x >= c] for a cell [x] and a literal [c]; both are
    [False] on NaN. *)
Definition flt (x : float) (c : Q) : bool :=
  match x with
  | Some q => Qlt_bool q c
  | None => false
  end.

Definition fge (x : float) (c : Q) : bool :=
  match x with
  | Some q => Qle_bool c q
  | None => false
  end.

(** ** [round(1)]: numpy's [rint(x * 10) / 10], ties to even *)

Definition rint (x : Q) : Z :=
  let f := Qfloor x in
  match Qcompare (x - inject_Z f) (1 # 2) with
  | Lt => f
  | Gt => (f + 1)%Z
  | Eq => if Z.even f then f else (f + 1)%Z
  end.

Definition round1 (x : Q) : Q := inject_Z (rint (x * 10)) / 10.

Definition fround1 (x : float) : float := option_map round1 x.

(** ** [mean]: the sum of the cells that are not NaN over their number *)

Fixpoint present (xs : list float) : list Q :=
  match xs with
  | [] => []
  | Some q :: t => q :: present t
  | None :: t => present t
  end.

Definition Qsum (xs : list Q) : Q := fold_left Qplus xs 0.

Definition nanmean (xs : list float) : float :=
  match present xs with
  | [] => NaN
  | v => Some (Qsum v / inject_Z (Z.of_nat (List.length v)))
  end.

(** ** The records of [data] and the frame built from them *)

(** One dict of [data].  The four descriptive keys are present in every
    record; the metric entries are kept as the dict has them, so that a
    record may lack one. *)
Record org_dict : Type := {
  org : string;
  country : string;
  lat : Q;
  lon : Q;
  metrics : list (string * Q)
}.

Fixpoint lookup (k : string) (d : list (string * Q)) : float :=
  match d with
  | [] => NaN
  | (k', v) :: t => if String.eqb k' k then Some v else lookup k t
  end.

(** A row of the frame: the record's cells and the added column. *)
Record row : Type := {
  r_dict : org_dict;
  Earth3_Index : float
}.

Definition DataFrame : Type := list row.

(** [r[col]] for a metric column: NaN where the record had no such key. *)
Definition get (r : row) (col : string) : float :=
  lookup col (metrics (r_dict r)).

Definition metric_cols : list string :=
  ["Finance"; "AI Governance"; "Climate"; "Equity"; "Sustainability"]%string.

(** [pd.DataFrame(data)] has a column for every key that some record
    has. *)
Definition has_column (data : list org_dict) (c : string) : bool :=
  existsb (fun d => match lookup c (metrics d) with
                    | Some _ => true
                    | None => false
                    end) data.

Definition missing_cols (data : list org_dict) : list string :=
  filter (fun c => negb (has_column data c)) metric_cols.

(** [df[metric_cols].mean(axis=1).round(1)] on one row, in exact
    arithmetic ([B64.row_index] is the binary64 computation). *)
Definition row_index (d : org_dict) : float :=
  fround1 (nanmean (map (fun c => lookup c (metrics d)) metric_cols)).

(** The body of [get_fake_orgs] after [data = [...]]: [df[metric_cols]]
    raises [KeyError] when a metric column is absent from the frame. *)
Definition build_orgs (data : list org_dict) : result DataFrame :=
  match missing_cols data with
  | [] => Ok (map (fun d => {| r_dict := d; Earth3_Index := row_index d |}) data)
  | m => Raise (KeyError m)
  end.

Definition mk_org (o c : string) (la lo f a cl e s : Q) : org_dict :=
  {| org := o; country := c; lat := la; lon := lo;
     metrics := [("Finance", f); ("AI Governance", a); ("Climate", cl);
                 ("Equity", e); ("Sustainability", s)]%string |}.

Definition data : list org_dict :=
  [ mk_org "Unilever PLC" "United Kingdom" (515074 # 10000) (- (1278 # 10000))
      78 85 62 71 77;
    mk_org "ACME Motors" "USA" (389072 # 10000) (- (770369 # 10000))
      72 65 58 68 60;
    mk_org "Nippon Auto" "Japan" (356762 # 10000) (1396503 # 10000)
      82 88 74 79 85;
    mk_org "GreenEnergy Ltd" "India" (286139 # 10000) (772090 # 10000)
      65 59 50 62 55;
    mk_org "Continental Foods" "Germany" (525200 # 10000) (134050 # 10000)
      83 80 78 75 82;
    mk_org "GlobalBank" "USA" (407128 # 10000) (- (740060 # 10000))
      75 55 68 66 70 ]%string.

Definition get_fake_orgs : result DataFrame := build_orgs data.

(** [ORGS_DF = get_fake_orgs()]; the call does not raise
    ([get_fake_orgs_ok] below). *)
Definition ORGS_DF : DataFrame :=
  match get_fake_orgs with
  | Ok df => df
  | Raise _ => []
  end.

(** ** The KPI row *)

(** [.sum()] of a boolean column. *)
Fixpoint bool_sum (bs : list bool) : nat :=
  match bs with
  | [] => 0%nat
  | b :: t => ((if b then 1 else 0) + bool_sum t)%nat
  end.

(** [ORGS_DF["Earth3_Index"].mean().round(1)].  When no row has an index
    (an empty column included) [mean] returns the Python float [nan],
    which has no [round]: the line raises [AttributeError]. *)
Definition global_index (df : DataFrame) : result float :=
  match nanmean (map Earth3_Index df) with
  | None => Raise AttributeError
  | Some m => Ok (Some (round1 m))
  end.

Definition num_green (df : DataFrame) : nat :=
  bool_sum (map (fun r => fge (Earth3_Index r) 70) df).

Definition num_red (df : DataFrame) : nat :=
  bool_sum (map (fun r => flt (Earth3_Index r) 65) df).

(** ** [status_color] of [build_map] *)

Definition status_color (val : float) : string :=
  if flt val 65 then "red"
  else if flt val 70 then "orange"
  else "green".

(** ** The selected entity: [ORGS_DF[ORGS_DF["org"]==org_choice].iloc[0]] *)

Definition iloc0 (df : DataFrame) : result row :=
  match df with
  | [] => Raise IndexError
  | r :: _ => Ok r
  end.

Definition sel (df : DataFrame) (org_choice : string) : result row :=
  iloc0 (filter (fun r => String.eqb (org (r_dict r)) org_choice) df).

(** ** The alerts loop and its panel *)

Definition alert : Type := (string * string * string)%type.

Inductive st_call : Type :=
| st_success (body : string)
| st_markdown (body : string).

Definition no_alerts_msg : string :=
  "No critical alerts detected across monitored entities.".

(** The separator of the alert line is an em dash (U+2014), three bytes
    in UTF-8. *)
Definition em_dash : string :=
  String (ascii_of_nat 226) (String (ascii_of_nat 128)
    (String (ascii_of_nat 148) EmptyString)).

Definition alert_line (a : alert) : string :=
  let '(a0, a1, a2) := a in
  ("- **" ++ a0 ++ "** " ++ em_dash ++ " " ++ a1 ++ " (" ++ a2 ++ ")")%string.

Definition alerts_panel (alerts : list alert) : list st_call :=
  match alerts with
  | [] => [st_success no_alerts_msg]
  | _ => fold_left (fun out a => out ++ [st_markdown (alert_line a)]) alerts []
  end.

Section Alerts.

(** The text of a float inside an f-string ([str] of the float). *)
Variable float_str : float -> string.

Definition low_readiness (r : row) : alert :=
  (org (r_dict r), "Low overall readiness",
   "Index " ++ float_str (Earth3_Index r))%string.

Definition ai_gov_weak (r : row) : alert :=
  (org (r_dict r), "AI governance weak",
   "AI Gov " ++ float_str (get r "AI Governance"))%string.

Definition climate_low (r : row) : alert :=
  (org (r_dict r), "Climate resilience low",
   "Climate " ++ float_str (get r "Climate"))%string.

(** One turn of [for _, r in ORGS_DF.iterrows()]. *)
Definition alerts_body (alerts : list alert) (r : row) : list alert :=
  let alerts :=
    if flt (Earth3_Index r) 65 then alerts ++ [low_readiness r] else alerts in
  let alerts :=
    if flt (get r "AI Governance") 60 then alerts ++ [ai_gov_weak r] else alerts in
  let alerts :=
    if flt (get r "Climate") 60 then alerts ++ [climate_low r] else alerts in
  alerts.

Definition alerts (df : DataFrame) : list alert :=
  fold_left alerts_body df [].

Definition executive_alerts (df : DataFrame) : list st_call :=
  alerts_panel (alerts df).

End Alerts.

(** [str] of a float on the values the worked examples need: NaN, and
    the rationals with at most one decimal digit ("58.2", "59.0"). *)
Definition str_tenths (x : float) : string :=
  match x with
  | None => "nan"
  | Some q =>
      let t := Qfloor (q * 10) in
      let a := Z.abs t in
      ((if (t <? 0)%Z then "-" else "")
       ++ NilZero.string_of_uint (N.to_uint (Z.to_N (a / 10)))
       ++ "." ++ NilZero.string_of_uint (N.to_uint (Z.to_N (a mod 10))))%string
  end.

(** ** [build_map]: the status column *)

(** [df["status"] = df["Earth3_Index"].apply(lambda v: status_color(v))] *)
Definition status_column (df : DataFrame) : list string :=
  map (fun r => status_color (Earth3_Index r)) df.

(** ** The details panel *)

(** [metrics], the list the details panel and the snapshot walk. *)
Definition detail_metrics : list string :=
  ["Finance"; "AI Governance"; "Climate"; "Equity"; "Sustainability"]%string.

(** The colour of one metric value of the selected entity. *)
Definition metric_color (val : float) : string :=
  if fge val 70 then "#065f46"
  else if flt val 65 then "#b91c1c"
  else "#b45309".

(** ** The PDF snapshot *)

Inductive canvas_op : Type :=
| setFont (name : string) (size : Q)
| drawString (x y : Q) (text : string)
| showPage
| save.

(** One turn of [for ln in lines[1:]]: the canvas so far and [y]. *)
Definition draw_line (st : list canvas_op * Q) (ln : string)
  : list canvas_op * Q :=
  (fst st ++ [drawString 40 (snd st) ln], snd st - 14).

Section Snapshot.

(** The text of a float inside an f-string. *)
Variable float_str : float -> string.

(** The formatted [datetime.utcnow()] of the "Generated" line. *)
Variable generated : string.

(** [width, height = A4], of which only the height is used. *)
Variable height : Q.

Definition snapshot_title (sel : row) : string :=
  ("Earth 3.0 " ++ em_dash ++ " Board Snapshot: " ++ org (r_dict sel))%string.

Definition snapshot_lines (sel : row) : list string :=
  let lines :=
    [ snapshot_title sel;
      "Country: " ++ country (r_dict sel);
      "Generated: " ++ generated;
      "" ]%string in
  let lines :=
    fold_left
      (fun lines m => lines ++ [(m ++ ": " ++ float_str (get sel m))%string])
      detail_metrics lines in
  lines ++ [("Earth3_Index: " ++ float_str (Earth3_Index sel))%string].

Definition snapshot_pdf (sel : row) : list canvas_op :=
  let lines := snapshot_lines sel in
  let c :=
    [ setFont "Helvetica-Bold" 14;
      drawString 40 (height - 60) (snapshot_title sel);
      setFont "Helvetica" 10 ] in
  let st := fold_left draw_line (tl lines) (c, height - 90) in
  fst st ++ [showPage; save].

End Snapshot.

(** ** The simulated trend *)

(** [np.linspace(start, stop, num)] *)
Definition linspace (start stop : Q) (num : nat) : list Q :=
  map (fun i => start
                + inject_Z (Z.of_nat i)
                  * ((stop - start) / inject_Z (Z.of_nat (num - 1))))
      (seq 0 num).

(** [np.clip(x, lo, hi)] *)
Definition clip (x lo hi : Q) : Q := Qmin (Qmax x lo) hi.

(** One column of [trend] for the metric value [v]:
    [np.clip(np.linspace(v-6, v+6, 12) + noise, 0, 100).round(1)], the
    twelve draws of [np.random.normal(0, 2, 12)] being [noise 0], ...,
    [noise 11].  A NaN metric gives twelve NaN. *)
Definition trend_column (v : float) (noise : nat -> Q) : list float :=
  match v with
  | None => repeat NaN 12
  | Some q =>
      map (fun p => Some (round1 (clip (snd p + noise (fst p)) 0 100)))
          (combine (seq 0 12) (linspace (q - 6) (q + 6) 12))
  end.

(** The three columns, in the order the draws are taken. *)
Definition trend (sel : row) (n1 n2 n3 : nat -> Q)
  : list float * list float * list float :=
  (trend_column (get sel "AI Governance") n1,
   trend_column (get sel "Sustainability") n2,
   trend_column (get sel "Finance") n3).

(** ** The index in binary64

    The definitions above compute on exact rationals, which is right
    for what depends only on the order of the numbers (bounds,
    monotonicity, comparisons with the thresholds).  The digits of an
    index are those of binary64 arithmetic: this module models
    [get_fake_orgs] and [global_index] on IEEE 754 binary64, every
    operation rounding to nearest, ties to even, with infinities and
    NaN, and with metric values that may be text.  pandas 2 is assumed
    ([mean] with [numeric_only=False]). *)

Module B64.

Definition float : Type := spec_float.

Definition prec : Z := 53.
Definition emax : Z := 1024.

Definition add : float -> float -> float := SFadd prec emax.
Definition mul : float -> float -> float := SFmul prec emax.
Definition div : float -> float -> float := SFdiv prec emax.

Definition nan : float := S754_nan.
Definition zero : float := S754_zero false.

(** The float of an integer, and of a decimal literal [n / d] with [d] a
    power of ten (the quotient of two exact floats, correctly rounded). *)
Definition of_Z (n : Z) : float := binary_normalize prec emax n 0 false.
Definition lit (n d : Z) : float := div (of_Z n) (of_Z d).

Definition isnan (x : float) : bool :=
  match x with
  | S754_nan => true
  | _ => false
  end.

(** The exact value of a finite float. *)
Definition to_Q (x : float) : Q :=
  match x with
  | S754_finite s m e =>
      (if s then - inject_Z (Zpos m) else inject_Z (Zpos m)) * Qpower 2 e
  | _ => 0
  end.

(** [np.rint]: the nearest integer, ties to even, the sign kept. *)
Definition rint (x : float) : float :=
  match x with
  | S754_finite s m (Zneg k) =>
      let d := Z.pow_pos 2 k in
      let q := (Zpos m / d)%Z in
      let r := (Zpos m mod d)%Z in
      let n := match (2 * r ?= d)%Z with
               | Lt => q
               | Gt => (q + 1)%Z
               | Eq => if Z.even q then q else (q + 1)%Z
               end in
      binary_normalize prec emax (if s then (- n)%Z else n) 0 s
  | _ => x
  end.

(** [round(1)]: [rint(x * 10) / 10]. *)
Definition round1 (x : float) : float :=
  div (rint (mul x (of_Z 10))) (of_Z 10).

(** [np.sum] of fewer than eight values adds them in order from 0.0
    (from eight values on numpy adds pairwise, which is not modelled:
    the statements on sums of rows are for frames of fewer than eight
    rows). *)
Definition np_sum (xs : list float) : float := fold_left add xs zero.

(** [nanmean]: NaN cells count 0.0 in the sum and are left out of the
    count; no cell left gives NaN. *)
Definition fill0 (x : float) : float := if isnan x then zero else x.

Definition count (xs : list float) : nat :=
  List.length (filter (fun x => negb (isnan x)) xs).

Definition nanmean (xs : list float) : float :=
  match count xs with
  | O => nan
  | c => div (np_sum (map fill0 xs)) (of_Z (Z.of_nat c))
  end.

(** A value of a dict: a float, or text where a float is expected. *)
Inductive value : Type :=
| Num (x : float)
| Str (s : string).

Record org_dict : Type := {
  org : string;
  country : string;
  lat : float;
  lon : float;
  metrics : list (string * value)
}.

Fixpoint lookup (k : string) (d : list (string * value)) : option value :=
  match d with
  | [] => None
  | (k', v) :: t => if String.eqb k' k then Some v else lookup k t
  end.

(** The cell of a float column: NaN where the record has no such key. *)
Definition cell (d : org_dict) (c : string) : float :=
  match lookup c (metrics d) with
  | Some (Num x) => x
  | _ => nan
  end.

Record row : Type := {
  r_dict : org_dict;
  r_cells : list (string * float);
  Earth3_Index : float
}.

Definition DataFrame : Type := list row.

Definition has_column (data : list org_dict) (c : string) : bool :=
  existsb (fun d => match lookup c (metrics d) with
                    | Some _ => true
                    | None => false
                    end) data.

Definition missing_cols (data : list org_dict) : list string :=
  filter (fun c => negb (has_column data c)) metric_cols.

(** A metric column that holds text has dtype [object], and [mean]
    raises [TypeError] on it. *)
Definition is_text (d : org_dict) (c : string) : bool :=
  match lookup c (metrics d) with
  | Some (Str _) => true
  | _ => false
  end.

Definition has_text (data : list org_dict) : bool :=
  existsb (fun d => existsb (is_text d) metric_cols) data.

Definition row_index (d : org_dict) : float :=
  round1 (nanmean (map (cell d) metric_cols)).

Definition mk_row (d : org_dict) : row :=
  {| r_dict := d;
     r_cells := map (fun c => (c, cell d c)) metric_cols;
     Earth3_Index := row_index d |}.

(** The body of [get_fake_orgs] after [data = [...]]. *)
Definition build_orgs (data : list org_dict) : result DataFrame :=
  match missing_cols data with
  | [] => if has_text data then Raise TypeError else Ok (map mk_row data)
  | m => Raise (KeyError m)
  end.

(** [r[col]] for a metric column of the frame. *)
Fixpoint get_cell (col : string) (cells : list (string * float)) : float :=
  match cells with
  | [] => nan
  | (c, x) :: t => if String.eqb c col then x else get_cell col t
  end.

Definition get (r : row) (col : string) : float := get_cell col (r_cells r).

Definition mk_org (o c : string) (la lo f a cl e s : float) : org_dict :=
  {| org := o; country := c; lat := la; lon := lo;
     metrics := [("Finance", Num f); ("AI Governance", Num a);
                 ("Climate", Num cl); ("Equity", Num e);
                 ("Sustainability", Num s)]%string |}.

Definition data : list org_dict :=
  [ mk_org "Unilever PLC" "United Kingdom"
      (lit 515074 10000) (lit (-1278) 10000)
      (of_Z 78) (of_Z 85) (of_Z 62) (of_Z 71) (of_Z 77);
    mk_org "ACME Motors" "USA" (lit 389072 10000) (lit (-770369) 10000)
      (of_Z 72) (of_Z 65) (of_Z 58) (of_Z 68) (of_Z 60);
    mk_org "Nippon Auto" "Japan" (lit 356762 10000) (lit 1396503 10000)
      (of_Z 82) (of_Z 88) (of_Z 74) (of_Z 79) (of_Z 85);
    mk_org "GreenEnergy Ltd" "India" (lit 286139 10000) (lit 772090 10000)
      (of_Z 65) (of_Z 59) (of_Z 50) (of_Z 62) (of_Z 55);
    mk_org "Continental Foods" "Germany" (lit 525200 10000) (lit 134050 10000)
      (of_Z 83) (of_Z 80) (of_Z 78) (of_Z 75) (of_Z 82);
    mk_org "GlobalBank" "USA" (lit 407128 10000) (lit (-740060) 10000)
      (of_Z 75) (of_Z 55) (of_Z 68) (of_Z 66) (of_Z 70) ]%string.

Definition get_fake_orgs : result DataFrame := build_orgs data.

Definition ORGS_DF : DataFrame :=
  match get_fake_orgs with
  | Ok df => df
  | Raise _ => []
  end.

(** [ORGS_DF["Earth3_Index"].mean().round(1)]: with no index that is
    not NaN, [mean] returns the Python float [nan], which has no
    [round]. *)
Definition global_index (df : DataFrame) : result float :=
  let xs := map Earth3_Index df in
  match count xs with
  | O => Raise AttributeError
  | c => Ok (round1 (div (np_sum (map fill0 xs)) (of_Z (Z.of_nat c))))
  end.

(** *** Shorthands and worked catalogs *)

(** The record [d] has the five numbers [f], [a], [c], [e], [s]. *)
Definition has_numbers (d : org_dict) (f a c e s : float) : Prop :=
  lookup "Finance" (metrics d) = Some (Num f)
  /\ lookup "AI Governance" (metrics d) = Some (Num a)
  /\ lookup "Climate" (metrics d) = Some (Num c)
  /\ lookup "Equity" (metrics d) = Some (Num e)
  /\ lookup "Sustainability" (metrics d) = Some (Num s).

(** Equality of floats as a boolean, for checks by evaluation. *)
Definition same (x y : float) : bool :=
  match x, y with
  | S754_zero a, S754_zero b => Bool.eqb a b
  | S754_infinity a, S754_infinity b => Bool.eqb a b
  | S754_nan, S754_nan => true
  | S754_finite s m e, S754_finite s' m' e' =>
      Bool.eqb s s' && Pos.eqb m m' && Z.eqb e e'
  | _, _ => false
  end.

(** The integers [0], ..., [n - 1]. *)
Definition upto (n : nat) : list Z := map Z.of_nat (seq 0 n).

(** The in-range record on which binary64 and exact rounding part:
    75.0, 83.7, 84.7, 78.4, 2.95, of exact mean a little above 64.95. *)
Definition rec_6495 : org_dict :=
  mk_org "Tie Corp" "X" zero zero
    (of_Z 75) (lit 837 10) (lit 847 10) (lit 784 10) (lit 295 100).

(** Five records of index 70.0 and one of index 70.9. *)
Definition data_7015 : list org_dict :=
  [ mk_org "A" "X" zero zero (of_Z 70) (of_Z 70) (of_Z 70) (of_Z 70) (of_Z 70);
    mk_org "B" "X" zero zero (of_Z 70) (of_Z 70) (of_Z 70) (of_Z 70) (of_Z 70);
    mk_org "C" "X" zero zero (of_Z 70) (of_Z 70) (of_Z 70) (of_Z 70) (of_Z 70);
    mk_org "D" "X" zero zero (of_Z 70) (of_Z 70) (of_Z 70) (of_Z 70) (of_Z 70);
    mk_org "E" "X" zero zero (of_Z 70) (of_Z 70) (of_Z 70) (of_Z 70) (of_Z 70);
    mk_org "F" "X" zero zero (lit 709 10) (lit 709 10) (lit 709 10)
      (lit 709 10) (lit 709 10) ]%string.

(** Six records whose per-record rounding moves the global figure:
    four of mean 70.04 and two of mean 70.14. *)
Definition data_drift : list org_dict :=
  [ mk_org "A" "X" zero zero (of_Z 70) (of_Z 70) (of_Z 70) (of_Z 70) (lit 702 10);
    mk_org "B" "X" zero zero (of_Z 70) (of_Z 70) (of_Z 70) (of_Z 70) (lit 702 10);
    mk_org "C" "X" zero zero (of_Z 70) (of_Z 70) (of_Z 70) (of_Z 70) (lit 702 10);
    mk_org "D" "X" zero zero (of_Z 70) (of_Z 70) (of_Z 70) (of_Z 70) (lit 702 10);
    mk_org "E" "X" zero zero (of_Z 70) (of_Z 70) (of_Z 70) (of_Z 70) (lit 707 10);
    mk_org "F" "X" zero zero (of_Z 70) (of_Z 70) (of_Z 70) (of_Z 70) (lit 707 10)
  ]%string.

(** The exact values of all the metric cells of a catalog. *)
Definition raw_values (data : list org_dict) : list Q :=
  flat_map (fun d => map (fun c => to_Q (cell d c)) metric_cols) data.

(** A record without the "Climate" key, one with text in it. *)
Definition no_climate : org_dict :=
  {| org := "Tyrell Corp"; country := "USA"; lat := of_Z 34;
     lon := of_Z (-118);
     metrics := [("Finance", Num (of_Z 70)); ("AI Governance", Num (of_Z 80));
                 ("Equity", Num (of_Z 90));
                 ("Sustainability", Num (of_Z 100))]%string |}.


End B64.

(** ** Shorthands for the statements *)

(** The record [d] has the five metric values [f], [a], [c], [e], [s]. *)
Definition has_metrics (d : org_dict) (f a c e s : Q) : Prop :=
  lookup "Finance" (metrics d) = Some f
  /\ lookup "AI Governance" (metrics d) = Some a
  /\ lookup "Climate" (metrics d) = Some c
  /\ lookup "Equity" (metrics d) = Some e
  /\ lookup "Sustainability" (metrics d) = Some s.

(** The number of rows of a colour column that carry the colour [c]. *)
Definition count_color (c : string) (cols : list string) : nat :=
  List.length (filter (String.eqb c) cols).

(** The cell [x] is not a number below [c]: it is NaN or at least [c]. *)
Definition not_below (x : float) (c : Q) : Prop :=
  forall q, x = Some q -> c <= q.

(** The text lines [ls] drawn downwards from [y], 14 points apart. *)
Fixpoint body_ops (ls : list string) (y : Q) : list canvas_op :=
  match ls with
  | [] => []
  | ln :: t => drawString 40 y ln :: body_ops t (y - 14)
  end.

(** A multiple of a tenth. *)
Definition is_tenth (q : Q) : Prop := exists k : Z, q == inject_Z k / 10.

(** The row has an index, NaN excluded. *)
Definition has_index (r : row) : bool :=
  match Earth3_Index r with
  | Some _ => true
  | None => false
  end.

(** ** The words of the specification *)

(** The arithmetic mean of a list of numbers. *)
Definition mean_of (xs : list Q) : Q :=
  Qsum xs / inject_Z (Z.of_nat (List.length xs)).

(** The three alert rules as the specification lists them, each giving
    no alert or one. *)
Definition rule_index (float_str : float -> string) (r : row) : list alert :=
  if flt (Earth3_Index r) 65
  then [(org (r_dict r), "Low overall readiness",
         "Index " ++ float_str (Earth3_Index r))%string]
  else [].

Definition rule_ai_gov (float_str : float -> string) (r : row) : list alert :=
  if flt (get r "AI Governance") 60
  then [(org (r_dict r), "AI governance weak",
         "AI Gov " ++ float_str (get r "AI Governance"))%string]
  else [].

Definition rule_climate (float_str : float -> string) (r : row) : list alert :=
  if flt (get r "Climate") 60
  then [(org (r_dict r), "Climate resilience low",
         "Climate " ++ float_str (get r "Climate"))%string]
  else [].

Definition entity_alerts (float_str : float -> string) (r : row) : list alert :=
  rule_index float_str r ++ rule_ai_gov float_str r ++ rule_climate float_str r.

(** ** Catalogs for the worked cases *)

(** A record without the "Climate" key. *)
Definition no_climate : org_dict :=
  {| org := "Tyrell Corp"; country := "USA"; lat := 34; lon := - (118);
     metrics := [("Finance", 70); ("AI Governance", 80);
                 ("Equity", 90); ("Sustainability", 100)]%string |}.


(** * Properties *)

(** ** Checks on the embedded data *)

Example str_tenths_582 : str_tenths (Some (582 # 10)) = "58.2"%string.
Proof. reflexivity. Qed.

Example str_tenths_59 : str_tenths (Some 59) = "59.0"%string.
Proof. reflexivity. Qed.

Example get_fake_orgs_ok : get_fake_orgs = Ok ORGS_DF.
Proof. reflexivity. Qed.

Example orgs_df_indices :
  map (fun r => option_map Qred (Earth3_Index r)) ORGS_DF
  = map (fun q => Some (Qred q))
      [746 # 10; 646 # 10; 816 # 10; 582 # 10; 796 # 10; 668 # 10].
Proof. reflexivity. Qed.

(** ** Rounding *)

Lemma Qlt_bool_iff (x y : Q) : Qlt_bool x y = true <-> x < y.
Proof.
  unfold Qlt_bool. rewrite negb_true_iff.
  split; intro H.
  - apply Qnot_le_lt. intro L. apply Qle_bool_iff in L. congruence.
  - destruct (Qle_bool y x) eqn:E; [|reflexivity].
    apply Qle_bool_iff in E. exfalso. apply (Qlt_not_le _ _ H E).
Qed.

Lemma Qlt_bool_false_iff (x y : Q) : Qlt_bool x y = false <-> y <= x.
Proof.
  unfold Qlt_bool. rewrite negb_false_iff. apply Qle_bool_iff.
Qed.

(** [inject_Z] of a sum or of the literal one, opened for [lra]. *)
Ltac open_inject :=
  repeat rewrite inject_Z_plus in *;
  change (inject_Z 1) with 1 in *.

Lemma rint_cases (x : Q) :
  let f := Qfloor x in
  (x - inject_Z f < 1 # 2 /\ rint x = f)
  \/ (1 # 2 < x - inject_Z f /\ rint x = (f + 1)%Z)
  \/ (x - inject_Z f == 1 # 2 /\ Z.even (rint x) = true
      /\ (rint x = f \/ rint x = (f + 1)%Z)).
Proof.
  intro f. unfold rint. fold f.
  destruct (Qcompare (x - inject_Z f) (1 # 2)) eqn:E.
  - right; right. apply Qeq_alt in E. split; [exact E|].
    destruct (Z.even f) eqn:Ev.
    + split; [exact Ev | left; reflexivity].
    + split; [| right; reflexivity].
      rewrite Z.even_add, Ev. reflexivity.
  - left. apply Qlt_alt in E. split; [exact E | reflexivity].
  - right; left. apply Qgt_alt in E. split; [exact E | reflexivity].
Qed.

Lemma rint_near (x : Q) :
  inject_Z (rint x) - (1 # 2) <= x /\ x <= inject_Z (rint x) + (1 # 2).
Proof.
  pose proof (Qfloor_le x) as Hl.
  pose proof (Qlt_floor x) as Hu.
  destruct (rint_cases x) as [[H E] | [[H E] | [H [_ [E | E]]]]];
    rewrite E; open_inject; split; lra.
Qed.

Lemma rint_ge (n : Z) (x : Q) : inject_Z n <= x -> (n <= rint x)%Z.
Proof.
  intro H.
  assert (F : (n <= Qfloor x)%Z).
  { rewrite <- (Qfloor_Z n). apply Qfloor_resp_le. exact H. }
  destruct (rint_cases x) as [[_ E] | [[_ E] | [_ [_ [E | E]]]]]; lia.
Qed.

Lemma rint_le (n : Z) (x : Q) : x <= inject_Z n -> (rint x <= n)%Z.
Proof.
  intro H.
  assert (F : (Qfloor x <= n)%Z).
  { rewrite <- (Qfloor_Z n). apply Qfloor_resp_le. exact H. }
  destruct (Z.eq_dec (Qfloor x) n) as [En | Ne].
  - pose proof (Qfloor_le x) as Hl. rewrite En in Hl.
    destruct (rint_cases x) as [[_ E] | [[G _] | [G _]]];
      [lia | |]; rewrite En in G; lra.
  - destruct (rint_cases x) as [[_ E] | [[_ E] | [_ [_ [E | E]]]]]; lia.
Qed.

#[export] Instance rint_comp : Proper (Qeq ==> eq) rint.
Proof.
  intros x y E. unfold rint.
  rewrite (Qfloor_comp x y E).
  assert (C : Qcompare (x - inject_Z (Qfloor y)) (1 # 2)
              = Qcompare (y - inject_Z (Qfloor y)) (1 # 2)).
  { apply Qcompare_comp; [rewrite E|]; reflexivity. }
  rewrite C. reflexivity.
Qed.

#[export] Instance round1_comp : Proper (Qeq ==> Qeq) round1.
Proof.
  intros x y E. unfold round1.
  assert (R : rint (x * 10) = rint (y * 10)) by (apply rint_comp; rewrite E; reflexivity).
  rewrite R. reflexivity.
Qed.

Lemma round1_bounds (lo hi : Z) (m : Q) :
  inject_Z lo <= m -> m <= inject_Z hi ->
  inject_Z lo <= round1 m /\ round1 m <= inject_Z hi.
Proof.
  intros L U. unfold round1.
  assert (A : (lo * 10 <= rint (m * 10))%Z).
  { apply rint_ge. rewrite inject_Z_mult. change (inject_Z 10) with 10. lra. }
  assert (B : (rint (m * 10) <= hi * 10)%Z).
  { apply rint_le. rewrite inject_Z_mult. change (inject_Z 10) with 10. lra. }
  rewrite Zle_Qle in A, B. rewrite inject_Z_mult in A, B.
  change (inject_Z 10) with 10 in A, B.
  unfold Qdiv. change (/ 10) with (1 # 10).
  split; lra.
Qed.

(** ** The index of a record *)

Lemma row_index_five (d : org_dict) (f a c e s : Q) :
  lookup "Finance" (metrics d) = Some f ->
  lookup "AI Governance" (metrics d) = Some a ->
  lookup "Climate" (metrics d) = Some c ->
  lookup "Equity" (metrics d) = Some e ->
  lookup "Sustainability" (metrics d) = Some s ->
  row_index d = Some (round1 (mean_of [f; a; c; e; s])).
Proof.
  intros Hf Ha Hc He Hs. unfold row_index, metric_cols. simpl map.
  rewrite Hf, Ha, Hc, He, Hs. reflexivity.
Qed.

Lemma mean_of_five (f a c e s : Q) :
  mean_of [f; a; c; e; s] == (f + a + c + e + s) / 5.
Proof.
  unfold mean_of, Qsum. simpl. change (inject_Z 5) with 5. field.
Qed.

(** C9: five metric values in [0, 100] give an index in [0, 100]. *)
Theorem index_in_range (d : org_dict) (f a c e s : Q) :
  lookup "Finance" (metrics d) = Some f ->
  lookup "AI Governance" (metrics d) = Some a ->
  lookup "Climate" (metrics d) = Some c ->
  lookup "Equity" (metrics d) = Some e ->
  lookup "Sustainability" (metrics d) = Some s ->
  0 <= f <= 100 -> 0 <= a <= 100 -> 0 <= c <= 100 ->
  0 <= e <= 100 -> 0 <= s <= 100 ->
  exists idx : Q, row_index d = Some idx /\ 0 <= idx <= 100.
Proof.
  intros Hf Ha Hc He Hs Rf Ra Rc Re Rs.
  exists (round1 (mean_of [f; a; c; e; s])).
  split; [apply (row_index_five d f a c e s); assumption|].
  pose proof (mean_of_five f a c e s) as Em.
  assert (M : 0 <= mean_of [f; a; c; e; s] <= 100).
  { rewrite Em. unfold Qdiv. change (/ 5) with (1 # 5). lra. }
  apply (round1_bounds 0 100); apply M.
Qed.

Lemma index_in_range_witness :
  exists idx : Q,
    row_index (mk_org "edge" "nowhere" 0 0 100 100 100 0 (1 # 3)) = Some idx
    /\ 0 <= idx <= 100.
Proof.
  apply (index_in_range (mk_org "edge" "nowhere" 0 0 100 100 100 0 (1 # 3))
           100 100 100 0 (1 # 3));
    try reflexivity; split; vm_compute; discriminate.
Defined.

(** ** Status and the two counts *)

Lemma flt_Some (q c : Q) : flt (Some q) c = true <-> q < c.
Proof. apply Qlt_bool_iff. Qed.

Lemma flt_Some_false (q c : Q) : flt (Some q) c = false <-> c <= q.
Proof. apply Qlt_bool_false_iff. Qed.

Lemma fge_Some (q c : Q) : fge (Some q) c = true <-> c <= q.
Proof. apply Qle_bool_iff. Qed.

(** C2: on a number the classifier returns one of the three colours,
    red (critical) exactly below 65, orange (warning) exactly on
    [65, 70), green (healthy) exactly from 70 on. *)
Theorem status_color_partition (q : Q) :
  (status_color (Some q) = "red"%string <-> q < 65)
  /\ (status_color (Some q) = "orange"%string <-> 65 <= q /\ q < 70)
  /\ (status_color (Some q) = "green"%string <-> 70 <= q)
  /\ (status_color (Some q) = "red"%string
      \/ status_color (Some q) = "orange"%string
      \/ status_color (Some q) = "green"%string).
Proof.
  unfold status_color.
  destruct (flt (Some q) 65) eqn:A; destruct (flt (Some q) 70) eqn:B;
    try apply flt_Some in A; try apply flt_Some_false in A;
    try apply flt_Some in B; try apply flt_Some_false in B;
    repeat split; intros; try discriminate; try lra; auto.
Qed.

(** NaN, which no comparison accepts, falls through to the last branch. *)
Remark status_color_nan : status_color NaN = "green"%string.
Proof. reflexivity. Qed.

Lemma bool_sum_filter {A : Type} (p : A -> bool) (l : list A) :
  bool_sum (map p l) = List.length (filter p l).
Proof.
  induction l as [|x l IH]; simpl; [reflexivity|].
  destruct (p x); simpl; rewrite IH; reflexivity.
Qed.

Lemma green_red_exclusive (x : float) :
  fge x 70 = true -> flt x 65 = true -> False.
Proof.
  destruct x as [q|]; simpl; [|discriminate].
  intros G R. apply Qle_bool_iff in G. apply Qlt_bool_iff in R. lra.
Qed.

Lemma counts_le (df : DataFrame) :
  (num_green df + num_red df <= List.length df)%nat.
Proof.
  unfold num_green, num_red.
  induction df as [|r df IH]; simpl; [lia|].
  destruct (fge (Earth3_Index r) 70) eqn:G;
    destruct (flt (Earth3_Index r) 65) eqn:R; try lia.
  exfalso. exact (green_red_exclusive _ G R).
Qed.

Lemma counts_lt (df : DataFrame) (r : row) :
  In r df ->
  fge (Earth3_Index r) 70 = false -> flt (Earth3_Index r) 65 = false ->
  (num_green df + num_red df < List.length df)%nat.
Proof.
  intros Hin G R.
  induction df as [|r' df IH]; [contradiction|].
  pose proof (counts_le df) as L.
  unfold num_green, num_red in *. simpl.
  destruct Hin as [E | Hin].
  - subst r'. rewrite G, R. lia.
  - specialize (IH Hin).
    destruct (fge (Earth3_Index r') 70) eqn:G';
      destruct (flt (Earth3_Index r') 65) eqn:R'; try lia.
    exfalso. exact (green_red_exclusive _ G' R').
Qed.

(** C4: the healthy count is the number of rows with index >= 70, the
    at-risk count the number of rows with index < 65; their sum is at
    most the number of rows, and smaller as soon as one row has
    65 <= index < 70. *)
Theorem counts_invariant (df : DataFrame) :
  num_green df
  = List.length (filter (fun r => fge (Earth3_Index r) 70) df)
  /\ num_red df
     = List.length (filter (fun r => flt (Earth3_Index r) 65) df)
  /\ (num_green df + num_red df <= List.length df)%nat
  /\ ((exists (r : row) (q : Q),
          In r df /\ Earth3_Index r = Some q /\ 65 <= q /\ q < 70) ->
      (num_green df + num_red df < List.length df)%nat).
Proof.
  split; [apply bool_sum_filter|].
  split; [apply bool_sum_filter|].
  split; [apply counts_le|].
  intros (r & q & Hin & Hq & Lo & Hi).
  apply (counts_lt df r Hin); rewrite Hq.
  - destruct (fge (Some q) 70) eqn:G; [|reflexivity].
    apply fge_Some in G. lra.
  - apply flt_Some_false. exact Lo.
Qed.

Lemma counts_invariant_witness :
  (num_green ORGS_DF + num_red ORGS_DF < List.length ORGS_DF)%nat.
Proof.
  apply (proj2 (proj2 (proj2 (counts_invariant ORGS_DF)))).
  exists {| r_dict := mk_org "GlobalBank" "USA" (407128 # 10000)
                        (- (740060 # 10000)) 75 55 68 66 70;
            Earth3_Index := Some (668 # 10) |}, (668 # 10).
  split; [do 5 right; left; reflexivity|].
  split; [reflexivity|].
  split; vm_compute; [discriminate | reflexivity].
Defined.

(** ** Selecting an entity *)

Lemma sel_cons (r : row) (df : DataFrame) (name : string) :
  sel (r :: df) name
  = if String.eqb (org (r_dict r)) name then Ok r else sel df name.
Proof.
  unfold sel. simpl. destruct (String.eqb (org (r_dict r)) name); reflexivity.
Qed.

Lemma sel_absent (df : DataFrame) (name : string) :
  (forall r, In r df -> org (r_dict r) <> name) ->
  sel df name = Raise IndexError.
Proof.
  induction df as [|r df IH]; intro H; [reflexivity|].
  rewrite sel_cons.
  destruct (String.eqb_spec (org (r_dict r)) name) as [E | N].
  - exfalso. exact (H r (or_introl eq_refl) E).
  - apply IH. intros r' Hr'. apply H. right. exact Hr'.
Qed.

Lemma sel_Ok (df : DataFrame) (name : string) (r : row) :
  sel df name = Ok r -> In r df /\ org (r_dict r) = name.
Proof.
  induction df as [|r' df IH]; [discriminate|].
  rewrite sel_cons.
  destruct (String.eqb_spec (org (r_dict r')) name) as [E | N].
  - intro H. injection H as <-. split; [left; reflexivity | exact E].
  - intro H. destruct (IH H) as [Hin Ho]. split; [right; exact Hin | exact Ho].
Qed.

Lemma sel_present (df : DataFrame) (name : string) (r : row) :
  In r df -> org (r_dict r) = name -> exists r', sel df name = Ok r'.
Proof.
  induction df as [|r' df IH]; [contradiction|].
  intros Hin Ho. rewrite sel_cons.
  destruct (String.eqb_spec (org (r_dict r')) name) as [E | N].
  - exists r'. reflexivity.
  - destruct Hin as [E | Hin]; [subst r'; contradiction|].
    exact (IH Hin Ho).
Qed.

Lemma sel_unique (df : DataFrame) (name : string) (r : row) :
  NoDup (map (fun r => org (r_dict r)) df) ->
  In r df -> org (r_dict r) = name -> sel df name = Ok r.
Proof.
  induction df as [|r' df IH]; [contradiction|].
  intros Nd Hin Ho. simpl in Nd. inversion Nd as [|? ? Nin Nd']; subst.
  rewrite sel_cons.
  destruct Hin as [E | Hin].
  - subst r'. rewrite String.eqb_refl. reflexivity.
  - destruct (String.eqb_spec (org (r_dict r')) (org (r_dict r))) as [E | N].
    + exfalso. apply Nin. rewrite E.
      apply (in_map (fun r => org (r_dict r))). exact Hin.
    + exact (IH Nd' Hin eq_refl).
Qed.

(** C7: selecting a name that no row carries raises [IndexError];
    whatever the selection returns is a row of the frame with the
    requested name, never another one; a name that is present is found,
    and with unique names the row found is that entity's. *)
Theorem sel_lookup (df : DataFrame) (name : string) :
  ((forall r, In r df -> org (r_dict r) <> name) ->
   sel df name = Raise IndexError)
  /\ (forall r, sel df name = Ok r -> In r df /\ org (r_dict r) = name)
  /\ (forall r, In r df -> org (r_dict r) = name ->
      exists r', sel df name = Ok r')
  /\ (NoDup (map (fun r => org (r_dict r)) df) ->
      forall r, In r df -> org (r_dict r) = name -> sel df name = Ok r).
Proof.
  split; [apply sel_absent|].
  split; [intro r; apply sel_Ok|].
  split; [intro r; apply sel_present|].
  intros Nd r. apply sel_unique. exact Nd.
Qed.

Lemma sel_lookup_witness :
  sel ORGS_DF "Initech" = Raise IndexError
  /\ sel ORGS_DF "Nippon Auto"
     = Ok {| r_dict := mk_org "Nippon Auto" "Japan" (356762 # 10000)
                         (1396503 # 10000) 82 88 74 79 85;
             Earth3_Index := row_index
                               (mk_org "Nippon Auto" "Japan" (356762 # 10000)
                                  (1396503 # 10000) 82 88 74 79 85) |}.
Proof.
  split.
  - apply (proj1 (sel_lookup ORGS_DF "Initech")).
    intros r Hin.
    repeat (destruct Hin as [<- | Hin]; [discriminate|]).
    contradiction.
  - apply (proj2 (proj2 (proj2 (sel_lookup ORGS_DF "Nippon Auto")))).
    + repeat constructor; simpl; intuition discriminate.
    + do 2 right; left; reflexivity.
    + reflexivity.
Defined.

(** ** The alerts loop *)

Lemma alerts_body_app (fs : float -> string) (acc : list alert) (r : row) :
  alerts_body fs acc r = acc ++ entity_alerts fs r.
Proof.
  unfold alerts_body, entity_alerts, rule_index, rule_ai_gov, rule_climate,
    low_readiness, ai_gov_weak, climate_low.
  destruct (flt (Earth3_Index r) 65);
    destruct (flt (get r "AI Governance") 60);
    destruct (flt (get r "Climate") 60);
    simpl; repeat rewrite <- app_assoc; simpl;
    try rewrite app_nil_r; reflexivity.
Qed.

Lemma alerts_loop (fs : float -> string) (df : DataFrame) (acc : list alert) :
  fold_left (alerts_body fs) df acc = acc ++ flat_map (entity_alerts fs) df.
Proof.
  revert acc. induction df as [|r df IH]; intro acc; simpl.
  - rewrite app_nil_r. reflexivity.
  - rewrite IH, alerts_body_app, <- app_assoc. reflexivity.
Qed.

Lemma entity_alerts_length (fs : float -> string) (r : row) :
  (List.length (entity_alerts fs r) <= 3)%nat.
Proof.
  unfold entity_alerts, rule_index, rule_ai_gov, rule_climate.
  destruct (flt (Earth3_Index r) 65);
    destruct (flt (get r "AI Governance") 60);
    destruct (flt (get r "Climate") 60); simpl; lia.
Qed.

(** C3: the alerts of a catalog are, row after row in catalog order, the
    alerts of the three rules in the order index, AI governance, climate;
    every rule that holds for a row emits its alert whatever the other
    two do, so a row gives at most three; the alerts of a catalog
    followed by another are those of the first followed by those of the
    second, nothing being sorted or merged. *)
Theorem alerts_rules (fs : float -> string) :
  (forall df, alerts fs df = flat_map (entity_alerts fs) df)
  /\ (forall r,
        entity_alerts fs r
        = rule_index fs r ++ rule_ai_gov fs r ++ rule_climate fs r
        /\ (List.length (entity_alerts fs r) <= 3)%nat)
  /\ (forall df1 df2, alerts fs (df1 ++ df2) = alerts fs df1 ++ alerts fs df2).
Proof.
  split; [intro df; apply (alerts_loop fs df [])|].
  split; [intro r; split; [reflexivity | apply entity_alerts_length]|].
  intros df1 df2. unfold alerts.
  rewrite !alerts_loop. simpl. apply flat_map_app.
Qed.

Example alerts_of_orgs :
  alerts str_tenths ORGS_DF
  = [ ("ACME Motors", "Low overall readiness", "Index 64.6");
      ("ACME Motors", "Climate resilience low", "Climate 58.0");
      ("GreenEnergy Ltd", "Low overall readiness", "Index 58.2");
      ("GreenEnergy Ltd", "AI governance weak", "AI Gov 59.0");
      ("GreenEnergy Ltd", "Climate resilience low", "Climate 50.0");
      ("GlobalBank", "AI governance weak", "AI Gov 55.0") ]%string.
Proof. reflexivity. Qed.

(** C5: the record with Finance 65, AI Governance 59, Climate 50,
    Equity 62 and Sustainability 55 gets the index 58.2, the colour red
    (critical), and the three alerts in the order index, AI governance,
    climate. *)
Theorem worked_example_2 (o c : string) (la lo : Q) :
  let d := mk_org o c la lo 65 59 50 62 55 in
  let r := {| r_dict := d; Earth3_Index := Some (582 # 10) |} in
  build_orgs [d] = Ok [r]
  /\ status_color (Earth3_Index r) = "red"%string
  /\ alerts str_tenths [r]
     = [ (o, "Low overall readiness", "Index 58.2");
         (o, "AI governance weak", "AI Gov 59.0");
         (o, "Climate resilience low", "Climate 50.0") ]%string.
Proof.
  repeat split.
Qed.

(** ** The alerts panel *)

Lemma panel_loop (l : list alert) (acc : list st_call) :
  fold_left (fun out a => out ++ [st_markdown (alert_line a)]) l acc
  = acc ++ map (fun a => st_markdown (alert_line a)) l.
Proof.
  revert acc. induction l as [|a l IH]; intro acc; simpl.
  - rewrite app_nil_r. reflexivity.
  - rewrite IH, <- app_assoc. reflexivity.
Qed.

Lemma alerts_panel_cons (a : alert) (l : list alert) :
  alerts_panel (a :: l) = map (fun a => st_markdown (alert_line a)) (a :: l).
Proof.
  unfold alerts_panel. rewrite panel_loop. reflexivity.
Qed.

(** C8: the panel is the single "no critical alerts" success message
    exactly when the alerts of the catalog are empty; otherwise it is one
    markdown line per alert, in order, and holds no success message. *)
Theorem panel_all_clear (fs : float -> string) (df : DataFrame) :
  (executive_alerts fs df = [st_success no_alerts_msg] <-> alerts fs df = [])
  /\ (alerts fs df <> [] ->
      executive_alerts fs df
      = map (fun a => st_markdown (alert_line a)) (alerts fs df)
      /\ forall m, ~ In (st_success m) (executive_alerts fs df)).
Proof.
  unfold executive_alerts.
  destruct (alerts fs df) as [|a l].
  - split; [split; reflexivity|]. intro H. contradiction H. reflexivity.
  - rewrite alerts_panel_cons. split.
    + split; discriminate.
    + intros _. split; [reflexivity|].
      intros m Hin. apply in_map_iff in Hin.
      destruct Hin as (x & Hx & _). discriminate.
Qed.

Lemma panel_all_clear_witness :
  executive_alerts str_tenths ORGS_DF
  = map (fun a => st_markdown (alert_line a)) (alerts str_tenths ORGS_DF)
  /\ forall m, ~ In (st_success m) (executive_alerts str_tenths ORGS_DF).
Proof.
  apply (proj2 (panel_all_clear str_tenths ORGS_DF)).
  vm_compute. discriminate.
Defined.

Example panel_all_clear_example :
  match build_orgs [mk_org "Nippon Auto" "Japan" (356762 # 10000)
                      (1396503 # 10000) 82 88 74 79 85] with
  | Ok df => executive_alerts str_tenths df
  | Raise _ => []
  end
  = [st_success "No critical alerts detected across monitored entities."].
Proof. reflexivity. Qed.

(** ** Records that lack a metric *)


(** * Further properties of the code *)

(** ** More on rounding *)

Lemma rint_mono (x y : Q) : x <= y -> (rint x <= rint y)%Z.
Proof.
  intro L.
  destruct (Z_le_gt_dec (rint x) (rint y)) as [H | H]; [exact H|].
  exfalso.
  assert (S : (rint y + 1 <= rint x)%Z) by lia.
  rewrite Zle_Qle in S. open_inject.
  pose proof (rint_near x) as [Lx _].
  pose proof (rint_near y) as [_ Uy].
  assert (E : x == y) by lra.
  rewrite (rint_comp x y E) in H. lia.
Qed.

Lemma round1_mono (x y : Q) : x <= y -> round1 x <= round1 y.
Proof.
  intro L. unfold round1.
  assert (M : (rint (x * 10) <= rint (y * 10))%Z) by (apply rint_mono; lra).
  rewrite Zle_Qle in M.
  unfold Qdiv. change (/ 10) with (1 # 10). lra.
Qed.

Lemma rint_inject (n : Z) : rint (inject_Z n) = n.
Proof.
  destruct (Z.le_gt_cases (rint (inject_Z n)) n) as [H | H].
  - pose proof (rint_ge n (inject_Z n) (Qle_refl _)). lia.
  - pose proof (rint_le n (inject_Z n) (Qle_refl _)). lia.
Qed.

Lemma round1_tenth (k : Z) : round1 (inject_Z k / 10) == inject_Z k / 10.
Proof.
  unfold round1.
  assert (E : inject_Z k / 10 * 10 == inject_Z k) by field.
  rewrite (rint_comp _ _ E), rint_inject. reflexivity.
Qed.

Lemma round1_ge (lo : Z) (m : Q) : inject_Z lo <= m -> inject_Z lo <= round1 m.
Proof.
  intro L. unfold round1.
  assert (A : (lo * 10 <= rint (m * 10))%Z).
  { apply rint_ge. rewrite inject_Z_mult. change (inject_Z 10) with 10. lra. }
  rewrite Zle_Qle in A. rewrite inject_Z_mult in A.
  change (inject_Z 10) with 10 in A.
  unfold Qdiv. change (/ 10) with (1 # 10). lra.
Qed.

(** ** The index as a function of the metrics *)

Lemma has_metrics_index (d : org_dict) (f a c e s : Q) :
  has_metrics d f a c e s ->
  row_index d = Some (round1 (mean_of [f; a; c; e; s])).
Proof.
  intros (Hf & Ha & Hc & He & Hs). apply row_index_five; assumption.
Qed.

(** X1: Raising metric values never lowers the index: of two records with
    all five metrics, the one whose values are pointwise at least the
    other's has an index at least the other's. *)
Theorem index_monotone (d d' : org_dict) (f a c e s f' a' c' e' s' : Q) :
  has_metrics d f a c e s -> has_metrics d' f' a' c' e' s' ->
  f <= f' -> a <= a' -> c <= c' -> e <= e' -> s <= s' ->
  exists i i' : Q,
    row_index d = Some i /\ row_index d' = Some i' /\ i <= i'.
Proof.
  intros H H' Lf La Lc Le Ls.
  exists (round1 (mean_of [f; a; c; e; s])),
         (round1 (mean_of [f'; a'; c'; e'; s'])).
  split; [apply has_metrics_index, H|].
  split; [apply has_metrics_index, H'|].
  apply round1_mono. rewrite !mean_of_five.
  unfold Qdiv. change (/ 5) with (1 # 5). lra.
Qed.

Lemma index_monotone_witness :
  exists i i' : Q,
    row_index (mk_org "GreenEnergy Ltd" "India" 0 0 65 59 50 62 55) = Some i
    /\ row_index (mk_org "ACME Motors" "USA" 0 0 72 65 58 68 60) = Some i'
    /\ i <= i'.
Proof.
  apply (index_monotone _ _ 65 59 50 62 55 72 65 58 68 60);
    try (repeat split; reflexivity); vm_compute; discriminate.
Defined.

(** X3: A record whose five metrics are all at least 70 is healthy on every
    view: its index is at least 70, it is green on the map and in each
    metric of the details panel, it is counted as healthy and not as at
    risk, and the alerts loop emits nothing for it. *)
Theorem healthy_entity
    (fs : float -> string) (d : org_dict) (f a c e s : Q) :
  has_metrics d f a c e s ->
  70 <= f -> 70 <= a -> 70 <= c -> 70 <= e -> 70 <= s ->
  exists idx : Q,
    row_index d = Some idx
    /\ 70 <= idx
    /\ status_color (Some idx) = "green"%string
    /\ (forall m, In m detail_metrics ->
          metric_color (lookup m (metrics d)) = "#065f46"%string)
    /\ num_green [{| r_dict := d; Earth3_Index := Some idx |}] = 1%nat
    /\ num_red [{| r_dict := d; Earth3_Index := Some idx |}] = 0%nat
    /\ alerts fs [{| r_dict := d; Earth3_Index := Some idx |}] = [].
Proof.
  intros H Lf La Lc Le Ls.
  pose proof (has_metrics_index d f a c e s H) as Ri.
  destruct H as (Hf & Ha & Hc & He & Hs).
  set (idx := round1 (mean_of [f; a; c; e; s])) in *.
  assert (G : 70 <= idx).
  { apply (round1_ge 70). rewrite mean_of_five.
    unfold Qdiv. change (/ 5) with (1 # 5). change (inject_Z 70) with 70. lra. }
  assert (G65 : flt (Some idx) 65 = false) by (apply flt_Some_false; lra).
  assert (G70 : flt (Some idx) 70 = false) by (apply flt_Some_false; lra).
  assert (Ge : fge (Some idx) 70 = true) by (apply fge_Some; exact G).
  exists idx. split; [exact Ri|]. split; [exact G|].
  split; [unfold status_color; rewrite G65, G70; reflexivity|].
  split.
  - intros m [K | [K | [K | [K | [K | []]]]]]; subst m;
      rewrite ?Hf, ?Ha, ?Hc, ?He, ?Hs; unfold metric_color;
      match goal with
      | |- (if fge (Some ?q) 70 then _ else _) = _ =>
          replace (fge (Some q) 70) with true
            by (symmetry; apply fge_Some; assumption)
      end; reflexivity.
  - assert (Fa : flt (Some a) 60 = false) by (apply flt_Some_false; lra).
    assert (Fc : flt (Some c) 60 = false) by (apply flt_Some_false; lra).
    unfold num_green, num_red, alerts, alerts_body, get.
    cbn [map bool_sum fold_left Earth3_Index r_dict].
    rewrite Ge, G65, Ha, Hc, Fa, Fc.
    repeat split.
Qed.

Lemma healthy_entity_witness :
  exists idx : Q,
    row_index (mk_org "Nippon Auto" "Japan" 0 0 82 88 74 79 85) = Some idx
    /\ 70 <= idx
    /\ status_color (Some idx) = "green"%string
    /\ (forall m, In m detail_metrics ->
          metric_color
            (lookup m (metrics (mk_org "Nippon Auto" "Japan" 0 0 82 88 74 79 85)))
          = "#065f46"%string)
    /\ num_green [{| r_dict := mk_org "Nippon Auto" "Japan" 0 0 82 88 74 79 85;
                     Earth3_Index := Some idx |}] = 1%nat
    /\ num_red [{| r_dict := mk_org "Nippon Auto" "Japan" 0 0 82 88 74 79 85;
                   Earth3_Index := Some idx |}] = 0%nat
    /\ alerts str_tenths
         [{| r_dict := mk_org "Nippon Auto" "Japan" 0 0 82 88 74 79 85;
             Earth3_Index := Some idx |}] = [].
Proof.
  apply (healthy_entity str_tenths
           (mk_org "Nippon Auto" "Japan" 0 0 82 88 74 79 85) 82 88 74 79 85);
    try (repeat split; reflexivity); vm_compute; discriminate.
Defined.

(** ** Map colours, panel colours and the KPI counts *)

(** Comparisons of string literals, evaluated in the goal. *)
Ltac eval_eqb :=
  repeat match goal with
         | |- context [String.eqb ?a ?b] =>
             let v := eval vm_compute in (String.eqb a b) in
             change (String.eqb a b) with v
         end.

Lemma row_colors (x : float) :
  (status_color x = "red"%string
   /\ flt x 65 = true /\ fge x 70 = false /\ x <> NaN)
  \/ (status_color x = "orange"%string
      /\ flt x 65 = false /\ fge x 70 = false /\ x <> NaN)
  \/ (status_color x = "green"%string
      /\ flt x 65 = false /\ fge x 70 = true /\ x <> NaN)
  \/ (status_color x = "green"%string /\ x = NaN).
Proof.
  destruct x as [q|]; [|right; right; right; split; reflexivity].
  unfold status_color.
  destruct (flt (Some q) 65) eqn:A.
  - left. apply flt_Some in A.
    repeat split; [|discriminate].
    destruct (fge (Some q) 70) eqn:C; [|reflexivity].
    apply fge_Some in C. lra.
  - right. apply flt_Some_false in A.
    destruct (flt (Some q) 70) eqn:B.
    + left. apply flt_Some in B.
      repeat split; [|discriminate].
      destruct (fge (Some q) 70) eqn:C; [|reflexivity].
      apply fge_Some in C. lra.
    + right; left. apply flt_Some_false in B.
      repeat split; [|discriminate].
      apply fge_Some. exact B.
Qed.

(** X4: The map and the KPI row agree on the red rows; every row whose index
    is NaN is green on the map without being counted as healthy, so the
    green rows are the healthy ones plus the rows without index; the
    orange rows are the rest. *)
Theorem status_column_counts (df : DataFrame) :
  count_color "red" (status_column df) = num_red df
  /\ count_color "green" (status_column df)
     = (num_green df + List.length (filter (fun r => negb (has_index r)) df))%nat
  /\ (count_color "red" (status_column df)
      + count_color "orange" (status_column df)
      + count_color "green" (status_column df))%nat = List.length df.
Proof.
  unfold count_color, status_column, num_red, num_green.
  induction df as [|r df (IHr & IHg & IHt)]; [repeat split|].
  cbn [map filter bool_sum List.length].
  destruct (row_colors (Earth3_Index r))
    as [(Ec & A & C & N) | [(Ec & A & C & N) | [(Ec & A & C & N) | (Ec & N)]]];
    rewrite Ec; unfold has_index at 1;
    [rewrite A, C | rewrite A, C | rewrite A, C | rewrite N];
    try (destruct (Earth3_Index r); [|contradiction N; reflexivity]);
    eval_eqb; cbn [negb List.length Nat.add fge flt NaN]; repeat split; lia.
Qed.

(** X5: On a number the colour of a metric in the details panel is the
    colour the map would give to an index of that value (#065f46 for
    green, #b91c1c for red, #b45309 for orange); on NaN the two differ:
    the panel shows the amber #b45309, the map green. *)
Theorem metric_color_vs_status (q : Q) :
  (metric_color (Some q) = "#065f46"%string
   <-> status_color (Some q) = "green"%string)
  /\ (metric_color (Some q) = "#b91c1c"%string
      <-> status_color (Some q) = "red"%string)
  /\ (metric_color (Some q) = "#b45309"%string
      <-> status_color (Some q) = "orange"%string)
  /\ metric_color NaN = "#b45309"%string
  /\ status_color NaN = "green"%string.
Proof.
  unfold metric_color.
  destruct (row_colors (Some q))
    as [(Ec & A & C & _) | [(Ec & A & C & _) | [(Ec & A & C & _) | (_ & N)]]];
    [| | | discriminate N];
    rewrite Ec, ?A, C; repeat split; intros; try discriminate; reflexivity.
Qed.

(** ** More on the alerts *)

Lemma flt_false_iff (x : float) (c : Q) : flt x c = false <-> not_below x c.
Proof.
  unfold not_below. destruct x as [q|]; simpl.
  - rewrite Qlt_bool_false_iff. split.
    + intros H q' E. injection E as <-. exact H.
    + intro H. apply H. reflexivity.
  - split; [intros _ q E; discriminate | reflexivity].
Qed.

Lemma entity_alerts_nil (fs : float -> string) (r : row) :
  entity_alerts fs r = []
  <-> flt (Earth3_Index r) 65 = false
      /\ flt (get r "AI Governance") 60 = false
      /\ flt (get r "Climate") 60 = false.
Proof.
  unfold entity_alerts, rule_index, rule_ai_gov, rule_climate.
  destruct (flt (Earth3_Index r) 65);
    destruct (flt (get r "AI Governance") 60);
    destruct (flt (get r "Climate") 60);
    split; intro H; try discriminate; try (repeat split; reflexivity);
    destruct H as (H1 & H2 & H3); discriminate.
Qed.

Lemma alerts_nil_iff (fs : float -> string) (df : DataFrame) :
  alerts fs df = []
  <-> forall r, In r df ->
        flt (Earth3_Index r) 65 = false
        /\ flt (get r "AI Governance") 60 = false
        /\ flt (get r "Climate") 60 = false.
Proof.
  unfold alerts. rewrite alerts_loop. cbn [app].
  induction df as [|r df IH]; cbn [flat_map].
  - split; [intros _ r [] | reflexivity].
  - split.
    + intros H. apply app_eq_nil in H. destruct H as [Hr Hdf].
      intros r' [E | Hin].
      * subst r'. apply (entity_alerts_nil fs r), Hr.
      * apply (proj1 IH Hdf r' Hin).
    + intro H.
      rewrite (proj2 (entity_alerts_nil fs r) (H r (or_introl eq_refl))).
      apply IH. intros r' Hin. apply H. right. exact Hin.
Qed.

(** X6: The panel shows the "no critical alerts" message exactly when no row
    has a number below its threshold: every index is NaN or at least 65,
    every AI Governance and every Climate value is missing or at least
    60.  A value that is missing never raises an alert. *)
Theorem all_clear_condition (fs : float -> string) (df : DataFrame) :
  executive_alerts fs df = [st_success no_alerts_msg]
  <-> forall r, In r df ->
        not_below (Earth3_Index r) 65
        /\ not_below (get r "AI Governance") 60
        /\ not_below (get r "Climate") 60.
Proof.
  assert (P : executive_alerts fs df = [st_success no_alerts_msg]
              <-> alerts fs df = []).
  { unfold executive_alerts. destruct (alerts fs df) as [|a l].
    - split; reflexivity.
    - rewrite alerts_panel_cons. split; discriminate. }
  rewrite P, alerts_nil_iff.
  split; intros H r Hin; specialize (H r Hin);
    rewrite <- !flt_false_iff in *; exact H.
Qed.

(** X7: The number of alerts is the at-risk count of the KPI row plus the
    number of rows with AI Governance below 60 plus the number of rows
    with Climate below 60. *)
Theorem alerts_count (fs : float -> string) (df : DataFrame) :
  List.length (alerts fs df)
  = (num_red df
     + bool_sum (map (fun r => flt (get r "AI Governance") 60) df)
     + bool_sum (map (fun r => flt (get r "Climate") 60) df))%nat.
Proof.
  unfold alerts, num_red. rewrite alerts_loop. cbn [app].
  induction df as [|r df IH]; [reflexivity|].
  cbn [flat_map map bool_sum]. rewrite length_app, IH.
  unfold entity_alerts, rule_index, rule_ai_gov, rule_climate.
  destruct (flt (Earth3_Index r) 65);
    destruct (flt (get r "AI Governance") 60);
    destruct (flt (get r "Climate") 60);
    cbn [List.length app]; lia.
Qed.

(** X8: Every alert comes from a row of the catalog on which its rule
    holds, and every rule that holds on a row has its alert in the list:
    no alert names an entity outside the catalog. *)
Theorem alert_origin (fs : float -> string) (df : DataFrame) (a : alert) :
  In a (alerts fs df)
  <-> exists r, In r df
        /\ ((flt (Earth3_Index r) 65 = true /\ a = low_readiness fs r)
            \/ (flt (get r "AI Governance") 60 = true /\ a = ai_gov_weak fs r)
            \/ (flt (get r "Climate") 60 = true /\ a = climate_low fs r)).
Proof.
  unfold alerts. rewrite alerts_loop. cbn [app]. rewrite in_flat_map.
  assert (E : forall r,
            In a (entity_alerts fs r)
            <-> (flt (Earth3_Index r) 65 = true /\ a = low_readiness fs r)
                \/ (flt (get r "AI Governance") 60 = true
                    /\ a = ai_gov_weak fs r)
                \/ (flt (get r "Climate") 60 = true /\ a = climate_low fs r)).
  { intro r.
    unfold entity_alerts, rule_index, rule_ai_gov, rule_climate,
      low_readiness, ai_gov_weak, climate_low.
    rewrite !in_app_iff.
    destruct (flt (Earth3_Index r) 65);
      destruct (flt (get r "AI Governance") 60);
      destruct (flt (get r "Climate") 60);
      cbn [In]; intuition (try discriminate; auto). }
  split; intros (r & Hin & H); exists r; (split; [exact Hin | apply E, H]).
Qed.

(** ** More on the selection *)

(** X9: With several rows of one name the selection is the first of them:
    [sel] returns [r] exactly when [r] is a row with the requested name
    and no row before it has that name. *)
Theorem sel_first_match (df : DataFrame) (name : string) (r : row) :
  sel df name = Ok r
  <-> exists l1 l2,
        df = l1 ++ r :: l2
        /\ org (r_dict r) = name
        /\ forall r', In r' l1 -> org (r_dict r') <> name.
Proof.
  induction df as [|r0 df IH].
  - split; [discriminate|]. intros (l1 & l2 & E & _).
    destruct l1; discriminate.
  - rewrite sel_cons.
    destruct (String.eqb_spec (org (r_dict r0)) name) as [E0 | N0].
    + split.
      * intro H. injection H as <-. exists [], df.
        split; [reflexivity|]. split; [exact E0 | intros r' []].
      * intros (l1 & l2 & E & Ho & Hb). destruct l1 as [|x l1].
        -- injection E as -> _. reflexivity.
        -- injection E as -> _. exfalso.
           exact (Hb x (or_introl eq_refl) E0).
    + rewrite IH. split.
      * intros (l1 & l2 & E & Ho & Hb). exists (r0 :: l1), l2.
        split; [rewrite E; reflexivity|]. split; [exact Ho|].
        intros r' [E' | Hin]; [subst r'; exact N0 | exact (Hb r' Hin)].
      * intros (l1 & l2 & E & Ho & Hb). destruct l1 as [|x l1].
        -- injection E as -> _. contradiction.
        -- injection E as -> ->. exists l1, l2.
           split; [reflexivity|]. split; [exact Ho|].
           intros r' Hin. apply Hb. right. exact Hin.
Qed.

(** ** More on the global index *)





Lemma present_In (xs : list float) (q : Q) :
  In q (present xs) <-> In (Some q) xs.
Proof.
  induction xs as [|[x|] xs IH]; simpl.
  - reflexivity.
  - rewrite IH. split; intros [E | H]; auto.
    + left. rewrite E. reflexivity.
    + left. injection E as ->. reflexivity.
  - rewrite IH. split; [auto | intros [E | H]; [discriminate | exact H]].
Qed.

Lemma present_filter (df : DataFrame) :
  present (map Earth3_Index (filter has_index df))
  = present (map Earth3_Index df).
Proof.
  induction df as [|r df IH]; [reflexivity|].
  cbn [filter map]. unfold has_index at 1.
  destruct (Earth3_Index r) eqn:E; cbn [map present]; rewrite ?E, IH;
    reflexivity.
Qed.

Lemma present_nil_iff (df : DataFrame) :
  present (map Earth3_Index df) = []
  <-> forall r, In r df -> Earth3_Index r = NaN.
Proof.
  split.
  - intros P r Hin.
    destruct (Earth3_Index r) as [x|] eqn:E; [|reflexivity].
    exfalso. assert (K : In x (present (map Earth3_Index df))).
    { apply present_In. rewrite <- E. apply in_map. exact Hin. }
    rewrite P in K. exact K.
  - intro H. destruct (present (map Earth3_Index df)) as [|q l] eqn:P;
      [reflexivity|]. exfalso.
    assert (K : In (Some q) (map Earth3_Index df)).
    { apply present_In. rewrite P. left. reflexivity. }
    apply in_map_iff in K. destruct K as (r & E & Hin).
    rewrite (H r Hin) in E. discriminate.
Qed.

(** X10: Rows without index do not enter the global index: on a frame of
    fewer than eight rows (where [sum] adds in order) it is the global
    index of the rows that have one.  The KPI line raises
    [AttributeError] exactly when no row has an index, as for the empty
    frame, and gives a number as soon as one row has an index. *)
Theorem global_index_skips_nan (df : DataFrame) :
  ((List.length df < 8)%nat ->
   global_index df = global_index (filter has_index df))
  /\ (global_index df = Raise AttributeError
      <-> forall r, In r df -> Earth3_Index r = NaN)
  /\ ((exists r, In r df /\ has_index r = true) ->
      exists g : Q, global_index df = Ok (Some g)).
Proof.
  split; [|split].
  - intros _. unfold global_index, nanmean.
    rewrite present_filter. reflexivity.
  - rewrite <- present_nil_iff. unfold global_index, nanmean.
    destruct (present (map Earth3_Index df)) as [|q l].
    + split; reflexivity.
    + split; discriminate.
  - intros (r & Hin & Hi). unfold global_index, nanmean.
    destruct (present (map Earth3_Index df)) as [|q l] eqn:P.
    + exfalso. unfold has_index in Hi.
      rewrite (proj1 (present_nil_iff df) P r Hin) in Hi. discriminate.
    + eexists. reflexivity.
Qed.

Lemma global_index_skips_nan_witness :
  global_index ORGS_DF = global_index (filter has_index ORGS_DF)
  /\ exists g : Q, global_index ORGS_DF = Ok (Some g).
Proof.
  split.
  - apply (proj1 (global_index_skips_nan ORGS_DF)). vm_compute. lia.
  - apply (proj2 (proj2 (global_index_skips_nan ORGS_DF))).
    eexists. split; [left; reflexivity | reflexivity].
Defined.



(** ** The snapshot *)

Lemma draw_loop (ls : list string) (c : list canvas_op) (y : Q) :
  fst (fold_left draw_line ls (c, y)) = c ++ body_ops ls y.
Proof.
  revert c y. induction ls as [|ln ls IH]; intros c y; cbn [fold_left body_ops].
  - cbn [fst]. rewrite app_nil_r. reflexivity.
  - unfold draw_line at 2. cbn [fst snd]. rewrite IH, <- app_assoc. reflexivity.
Qed.

Lemma body_ops_length (ls : list string) (y : Q) :
  List.length (body_ops ls y) = List.length ls.
Proof.
  revert y. induction ls as [|ln ls IH]; intro y; cbn [body_ops List.length];
    [reflexivity | rewrite IH; reflexivity].
Qed.

Lemma body_ops_nth (ls : list string) (y : Q) (i : nat) (ln : string) :
  nth_error ls i = Some ln ->
  exists y' : Q,
    nth_error (body_ops ls y) i = Some (drawString 40 y' ln)
    /\ y' == y - 14 * inject_Z (Z.of_nat i).
Proof.
  revert y i. induction ls as [|l0 ls IH]; intros y i H.
  - destruct i; discriminate.
  - destruct i as [|i]; cbn [nth_error body_ops] in *.
    + injection H as <-. exists y. split; [reflexivity|].
      change (inject_Z (Z.of_nat 0)) with 0. ring.
    + destruct (IH (y - 14) i H) as (y' & E & Ey).
      exists y'. split; [exact E|].
      rewrite Ey, Nat2Z.inj_succ. unfold Z.succ. open_inject. ring.
Qed.

Lemma body_ops_In (ls : list string) (y0 x y : Q) (t : string) :
  In (drawString x y t) (body_ops ls y0) ->
  x = 40 /\ exists i : nat,
              (i < List.length ls)%nat /\ y == y0 - 14 * inject_Z (Z.of_nat i).
Proof.
  revert y0. induction ls as [|l0 ls IH]; intros y0 H; [contradiction|].
  cbn [body_ops In] in H. destruct H as [E | H].
  - injection E as <- <- _. split; [reflexivity|]. exists 0%nat.
    split; [cbn; lia|]. change (inject_Z (Z.of_nat 0)) with 0. ring.
  - destruct (IH (y0 - 14) H) as (Ex & i & Li & Ey).
    split; [exact Ex|]. exists (S i). split; [cbn [List.length]; lia|].
    rewrite Ey, Nat2Z.inj_succ. unfold Z.succ. open_inject. ring.
Qed.

Lemma snapshot_lines_eq
    (fs : float -> string) (generated : string) (sel : row) :
  snapshot_lines fs generated sel
  = [ snapshot_title sel;
      "Country: " ++ country (r_dict sel);
      "Generated: " ++ generated;
      "";
      "Finance: " ++ fs (get sel "Finance");
      "AI Governance: " ++ fs (get sel "AI Governance");
      "Climate: " ++ fs (get sel "Climate");
      "Equity: " ++ fs (get sel "Equity");
      "Sustainability: " ++ fs (get sel "Sustainability");
      "Earth3_Index: " ++ fs (Earth3_Index sel) ]%string.
Proof. reflexivity. Qed.

(** X12: The snapshot page: the title in bold at [height - 60], then, in the
    regular font, the nine lines after the title (country, time of
    generation, a blank line, the five metrics, the index), the [i]-th
    of them at [height - 90 - 14 i]; the title line of [lines] is not
    drawn a second time; the page is then closed and saved. *)
Theorem snapshot_layout
    (fs : float -> string) (generated : string) (height : Q) (sel : row) :
  exists body : list canvas_op,
    snapshot_pdf fs generated height sel
    = [ setFont "Helvetica-Bold" 14;
        drawString 40 (height - 60) (snapshot_title sel);
        setFont "Helvetica" 10 ] ++ body ++ [showPage; save]
    /\ List.length body = 9%nat
    /\ forall (i : nat) (ln : string),
         nth_error (tl (snapshot_lines fs generated sel)) i = Some ln ->
         exists y : Q,
           nth_error body i = Some (drawString 40 y ln)
           /\ y == height - 90 - 14 * inject_Z (Z.of_nat i).
Proof.
  exists (body_ops (tl (snapshot_lines fs generated sel)) (height - 90)).
  split; [|split].
  - unfold snapshot_pdf. rewrite draw_loop, <- app_assoc. reflexivity.
  - rewrite body_ops_length, snapshot_lines_eq. reflexivity.
  - intros i ln H. apply body_ops_nth. exact H.
Qed.

Lemma snapshot_layout_witness :
  exists body : list canvas_op,
    snapshot_pdf str_tenths "November 03, 2026 10:00 UTC" 842
      {| r_dict := no_climate; Earth3_Index := Some 85 |}
    = [ setFont "Helvetica-Bold" 14;
        drawString 40 (842 - 60)
          (snapshot_title {| r_dict := no_climate; Earth3_Index := Some 85 |});
        setFont "Helvetica" 10 ] ++ body ++ [showPage; save]
    /\ List.length body = 9%nat
    /\ forall (i : nat) (ln : string),
         nth_error
           (tl (snapshot_lines str_tenths "November 03, 2026 10:00 UTC"
                  {| r_dict := no_climate; Earth3_Index := Some 85 |})) i
         = Some ln ->
         exists y : Q,
           nth_error body i = Some (drawString 40 y ln)
           /\ y == 842 - 90 - 14 * inject_Z (Z.of_nat i).
Proof.
  apply (snapshot_layout str_tenths "November 03, 2026 10:00 UTC" 842
           {| r_dict := no_climate; Earth3_Index := Some 85 |}).
Defined.

(** X13: On a page at least 202 points high (A4 is about 842) every string
    of the snapshot is drawn at [x = 40] and at a height between 0 and
    [height - 60]: nothing runs off the bottom of the page. *)
Theorem snapshot_on_page
    (fs : float -> string) (generated : string) (height : Q) (sel : row)
    (x y : Q) (t : string) :
  202 <= height ->
  In (drawString x y t) (snapshot_pdf fs generated height sel) ->
  x = 40 /\ 0 <= y /\ y <= height - 60.
Proof.
  intros Hh Hin. unfold snapshot_pdf in Hin.
  rewrite draw_loop in Hin.
  rewrite !in_app_iff in Hin. destruct Hin as [[Hc | Hb] | Hs].
  - destruct Hc as [E | [E | [E | []]]]; try discriminate.
    injection E as <- <- _. split; [reflexivity|]. split; lra.
  - apply body_ops_In in Hb. destruct Hb as (Ex & i & Li & Ey).
    rewrite snapshot_lines_eq in Li. cbn [tl List.length] in Li.
    split; [exact Ex|].
    assert (I0 : 0 <= inject_Z (Z.of_nat i)).
    { change 0 with (inject_Z 0). rewrite <- Zle_Qle. lia. }
    assert (I8 : inject_Z (Z.of_nat i) <= 8).
    { change 8 with (inject_Z 8). rewrite <- Zle_Qle. lia. }
    rewrite Ey. split; lra.
  - destruct Hs as [E | [E | []]]; discriminate.
Qed.

Lemma snapshot_on_page_witness :
  40 = 40 /\ 0 <= 842 - 90 - 14 /\ 842 - 90 - 14 <= 842 - 60.
Proof.
  apply (snapshot_on_page str_tenths "November 03, 2026 10:00 UTC" 842
           {| r_dict := no_climate; Earth3_Index := Some 85 |}
           40 (842 - 90 - 14) "Generated: November 03, 2026 10:00 UTC").
  - vm_compute. discriminate.
  - unfold snapshot_pdf. rewrite draw_loop, snapshot_lines_eq.
    cbn [tl body_ops app In]. right; right; right; right; left. reflexivity.
Defined.

(** ** The simulated trend *)

Lemma clip_bounds (x lo hi : Q) : lo <= hi -> lo <= clip x lo hi <= hi.
Proof.
  intro L. unfold clip. split.
  - apply Q.min_glb; [apply Q.le_max_r | exact L].
  - apply Q.le_min_r.
Qed.

(** X14: Whatever the random draws, a trend column has twelve entries; for a
    metric that is a number each entry is a multiple of a tenth between
    0 and 100, the clipping to [0, 100] surviving the rounding; for a
    missing metric the twelve entries are NaN. *)
Theorem trend_column_range (v : float) (noise : nat -> Q) :
  List.length (trend_column v noise) = 12%nat
  /\ forall x, In x (trend_column v noise) ->
       match v with
       | None => x = NaN
       | Some _ => exists q : Q, x = Some q /\ 0 <= q <= 100 /\ is_tenth q
       end.
Proof.
  destruct v as [q|]; (split; [reflexivity|]); intros x Hin.
  - unfold trend_column in Hin. apply in_map_iff in Hin.
    destruct Hin as (p & <- & _).
    eexists. split; [reflexivity|]. split.
    + apply (round1_bounds 0 100); apply (clip_bounds _ 0 100); discriminate.
    + eexists. unfold round1. reflexivity.
  - unfold trend_column in Hin. apply repeat_spec in Hin. exact Hin.
Qed.

Lemma trend_column_range_witness :
  exists q : Q, Some (round1 (clip (78 - 6 + 0 * ((78 + 6 - (78 - 6)) / 11) + 250) 0 100))
                = Some q
                /\ 0 <= q <= 100 /\ is_tenth q.
Proof.
  apply (proj2 (trend_column_range (Some 78) (fun _ => 250))
           (Some (round1 (clip (78 - 6 + 0 * ((78 + 6 - (78 - 6)) / 11) + 250)
                            0 100)))).
  left. reflexivity.
Defined.

(** * The index in binary64 *)

(** ** Floats by evaluation *)

Lemma same_eq (x y : B64.float) : B64.same x y = true -> x = y.
Proof.
  destruct x as [a | a | | s m e]; destruct y as [b | b | | s' m' e'];
    simpl; try discriminate; intro H.
  - apply Bool.eqb_prop in H. subst. reflexivity.
  - apply Bool.eqb_prop in H. subst. reflexivity.
  - reflexivity.
  - apply andb_prop in H. destruct H as [H He].
    apply andb_prop in H. destruct H as [Hs Hm].
    apply Bool.eqb_prop in Hs. apply Pos.eqb_eq in Hm. apply Z.eqb_eq in He.
    subst. reflexivity.
Qed.

Lemma In_upto (n : nat) (z : Z) :
  (0 <= z < Z.of_nat n)%Z -> In z (B64.upto n).
Proof.
  intro H. unfold B64.upto. apply in_map_iff.
  exists (Z.to_nat z). split; [lia|]. apply in_seq. lia.
Qed.

(** Whole numbers up to 500 add without rounding. *)
Lemma add_small (m n : Z) :
  (0 <= m <= 400)%Z -> (0 <= n <= 100)%Z ->
  B64.add (B64.of_Z m) (B64.of_Z n) = B64.of_Z (m + n).
Proof.
  intros Hm Hn. apply same_eq.
  assert (C : forallb (fun m => forallb (fun n =>
                B64.same (B64.add (B64.of_Z m) (B64.of_Z n))
                         (B64.of_Z (m + n))) (B64.upto 101)) (B64.upto 401)
              = true) by (vm_compute; reflexivity).
  rewrite forallb_forall in C.
  specialize (C m (In_upto 401 m ltac:(lia))).
  rewrite forallb_forall in C.
  exact (C n (In_upto 101 n ltac:(lia))).
Qed.

(** A fifth of a whole number up to 500 rounds to itself: the result
    is the float of the one-decimal number [2 S / 10]. *)
Lemma round1_fifth (S : Z) :
  (0 <= S <= 500)%Z ->
  B64.round1 (B64.div (B64.of_Z S) (B64.of_Z 5)) = B64.lit (2 * S) 10.
Proof.
  intro H. apply same_eq.
  assert (C : forallb (fun S =>
                B64.same (B64.round1 (B64.div (B64.of_Z S) (B64.of_Z 5)))
                         (B64.lit (2 * S) 10)) (B64.upto 501)
              = true) by (vm_compute; reflexivity).
  rewrite forallb_forall in C.
  exact (C S (In_upto 501 S ltac:(lia))).
Qed.

Lemma of_Z_not_nan (z : Z) :
  (0 <= z <= 100)%Z -> B64.isnan (B64.of_Z z) = false.
Proof.
  intro H.
  assert (C : forallb (fun z => negb (B64.isnan (B64.of_Z z))) (B64.upto 101)
              = true) by (vm_compute; reflexivity).
  rewrite forallb_forall in C.
  apply negb_true_iff. exact (C z (In_upto 101 z ltac:(lia))).
Qed.

Lemma add_zero_l (x : B64.float) :
  x <> S754_zero true -> B64.add B64.zero x = x.
Proof.
  destruct x as [[|] | s | | s m e]; intro H; try reflexivity.
  contradiction H. reflexivity.
Qed.

(** ** Loading *)

Lemma missing_cols_spec64 (data : list B64.org_dict) (c : string) :
  In c (B64.missing_cols data)
  <-> In c metric_cols
      /\ forall d, In d data -> B64.lookup c (B64.metrics d) = None.
Proof.
  unfold B64.missing_cols. rewrite filter_In, negb_true_iff.
  unfold B64.has_column.
  split; intros [Hc H]; (split; [exact Hc|]).
  - intros d Hd.
    destruct (B64.lookup c (B64.metrics d)) eqn:E; [|reflexivity].
    exfalso.
    assert (T : existsb (fun d => match B64.lookup c (B64.metrics d) with
                                  | Some _ => true
                                  | None => false
                                  end) data = true).
    { apply existsb_exists. exists d. split; [exact Hd|]. rewrite E.
      reflexivity. }
    congruence.
  - destruct (existsb _ data) eqn:E; [|reflexivity].
    apply existsb_exists in E. destruct E as (d & Hd & Hl).
    rewrite (H d Hd) in Hl. discriminate.
Qed.


Lemma numbers_no_missing
    (data : list B64.org_dict) (d : B64.org_dict) (f a c e s : B64.float) :
  In d data -> B64.has_numbers d f a c e s -> B64.missing_cols data = [].
Proof.
  intros Hin (Hf & Ha & Hc & He & Hs).
  destruct (B64.missing_cols data) as [|k l] eqn:M; [reflexivity|].
  exfalso.
  assert (K : In k (B64.missing_cols data)) by (rewrite M; left; reflexivity).
  apply missing_cols_spec64 in K. destruct K as [Hk Hn].
  specialize (Hn d Hin).
  destruct Hk as [K | [K | [K | [K | [K | []]]]]]; subst k; congruence.
Qed.


Lemma row_index_numbers (d : B64.org_dict) (f a c e s : B64.float) :
  B64.has_numbers d f a c e s ->
  B64.isnan f = false -> B64.isnan a = false -> B64.isnan c = false ->
  B64.isnan e = false -> B64.isnan s = false ->
  B64.row_index d
  = B64.round1 (B64.div (B64.np_sum [f; a; c; e; s]) (B64.of_Z 5)).
Proof.
  intros (Hf & Ha & Hc & He & Hs) Nf Na Nc Ne Ns.
  unfold B64.row_index, metric_cols. cbn [map]. unfold B64.cell.
  rewrite Hf, Ha, Hc, He, Hs.
  unfold B64.nanmean, B64.count. cbn [filter map]. unfold B64.fill0.
  rewrite Nf, Na, Nc, Ne, Ns. reflexivity.
Qed.

(** ** The index of a record *)

(** C1, the claim as written fails: on 75.0, 83.7, 84.7, 78.4, 2.95 the
    arithmetic mean of the values rounds to 65.0, a float, and the
    program's index is the float 64.9. *)
Lemma index_not_rounded_mean :
  B64.has_numbers B64.rec_6495
    (B64.of_Z 75) (B64.lit 837 10) (B64.lit 847 10) (B64.lit 784 10)
    (B64.lit 295 100)
  /\ B64.build_orgs [B64.rec_6495] = Ok [B64.mk_row B64.rec_6495]
  /\ B64.Earth3_Index (B64.mk_row B64.rec_6495) = B64.lit 649 10
  /\ round1 (mean_of (map B64.to_Q
                        [B64.of_Z 75; B64.lit 837 10; B64.lit 847 10;
                         B64.lit 784 10; B64.lit 295 100])) == 65
  /\ B64.to_Q (B64.lit 650 10) == 65
  /\ B64.lit 649 10 <> B64.lit 650 10.
Proof.
  split; [repeat split|].
  split; [vm_compute; reflexivity|].
  split; [vm_compute; reflexivity|].
  split; [vm_compute; reflexivity|].
  split; [vm_compute; reflexivity|].
  vm_compute. discriminate.
Qed.

(** C1, amended: for a record with five metric values, whatever their
    range, loading succeeds (no text being in the catalog) and the index
    is the binary64 result of adding the five values in the order
    Finance, AI Governance, Climate, Equity, Sustainability, dividing
    by 5, multiplying by 10, rounding to the nearest integer, ties to
    even, and dividing by 10.  For whole-number values in [0, 100] this
    is the float of the arithmetic mean rounded to one decimal place. *)
Theorem index_binary64 :
  (forall (data : list B64.org_dict) (d : B64.org_dict)
          (f a c e s : B64.float),
     In d data -> B64.has_text data = false ->
     B64.has_numbers d f a c e s ->
     B64.isnan f = false -> B64.isnan a = false -> B64.isnan c = false ->
     B64.isnan e = false -> B64.isnan s = false ->
     f <> S754_zero true ->
     exists (df : B64.DataFrame) (r : B64.row),
       B64.build_orgs data = Ok df
       /\ In r df /\ B64.r_dict r = d
       /\ B64.Earth3_Index r
          = B64.div
              (B64.rint
                 (B64.mul
                    (B64.div (B64.add (B64.add (B64.add (B64.add f a) c) e) s)
                       (B64.of_Z 5))
                    (B64.of_Z 10)))
              (B64.of_Z 10))
  /\ (forall (d : B64.org_dict) (f a c e s : Z),
        (0 <= f <= 100)%Z -> (0 <= a <= 100)%Z -> (0 <= c <= 100)%Z ->
        (0 <= e <= 100)%Z -> (0 <= s <= 100)%Z ->
        B64.has_numbers d (B64.of_Z f) (B64.of_Z a) (B64.of_Z c)
          (B64.of_Z e) (B64.of_Z s) ->
        B64.row_index d = B64.lit (2 * (f + a + c + e + s)) 10
        /\ round1 (inject_Z (f + a + c + e + s) / 5)
           == inject_Z (2 * (f + a + c + e + s)) / 10).
Proof.
  split.
  - intros data d f a c e s Hin Ht H Nf Na Nc Ne Ns Z0.
    exists (map B64.mk_row data), (B64.mk_row d).
    split.
    { unfold B64.build_orgs.
      rewrite (numbers_no_missing data d f a c e s Hin H), Ht. reflexivity. }
    split; [apply in_map; exact Hin|]. split; [reflexivity|].
    cbn [B64.Earth3_Index B64.mk_row].
    rewrite (row_index_numbers d f a c e s H Nf Na Nc Ne Ns).
    unfold B64.np_sum. cbn [fold_left]. rewrite (add_zero_l f Z0).
    reflexivity.
  - intros d f a c e s Rf Ra Rc Re Rs H. split.
    + rewrite (row_index_numbers d _ _ _ _ _ H
                 (of_Z_not_nan f Rf) (of_Z_not_nan a Ra) (of_Z_not_nan c Rc)
                 (of_Z_not_nan e Re) (of_Z_not_nan s Rs)).
      unfold B64.np_sum. cbn [fold_left].
      change B64.zero with (B64.of_Z 0).
      rewrite !add_small by lia.
      rewrite round1_fifth by lia.
      replace (0 + f + a + c + e + s)%Z with (f + a + c + e + s)%Z by lia.
      reflexivity.
    + assert (E : inject_Z (f + a + c + e + s) / 5
                  == inject_Z (2 * (f + a + c + e + s)) / 10).
      { rewrite inject_Z_mult. change (inject_Z 2) with 2. field. }
      rewrite E. apply round1_tenth.
Qed.

Lemma index_binary64_witness :
  (exists (df : B64.DataFrame) (r : B64.row),
     B64.build_orgs [B64.rec_6495] = Ok df
     /\ In r df /\ B64.r_dict r = B64.rec_6495
     /\ B64.Earth3_Index r
        = B64.div
            (B64.rint
               (B64.mul
                  (B64.div
                     (B64.add
                        (B64.add
                           (B64.add (B64.add (B64.of_Z 75) (B64.lit 837 10))
                              (B64.lit 847 10))
                           (B64.lit 784 10))
                        (B64.lit 295 100))
                     (B64.of_Z 5))
                  (B64.of_Z 10)))
            (B64.of_Z 10))
  /\ B64.row_index
       (B64.mk_org "Unilever PLC" "United Kingdom" (B64.lit 515074 10000)
          (B64.lit (-1278) 10000) (B64.of_Z 78) (B64.of_Z 85) (B64.of_Z 62)
          (B64.of_Z 71) (B64.of_Z 77))
     = B64.lit (2 * (78 + 85 + 62 + 71 + 77)) 10.
Proof.
  split.
  - apply (proj1 index_binary64 [B64.rec_6495] B64.rec_6495);
      try reflexivity; try discriminate.
    + left. reflexivity.
    + repeat split.
  - apply (proj2 index_binary64
             (B64.mk_org "Unilever PLC" "United Kingdom" (B64.lit 515074 10000)
                (B64.lit (-1278) 10000) (B64.of_Z 78) (B64.of_Z 85)
                (B64.of_Z 62) (B64.of_Z 71) (B64.of_Z 77))
             78 85 62 71 77)%Z; try lia.
    repeat split.
Defined.

(** ** Records with a missing or malformed metric *)



(** In binary64 too the record without "Climate" is loaded with the
    index 85.0, the mean of its four values. *)
Example no_climate_binary64 :
  exists df : B64.DataFrame,
    B64.build_orgs (B64.data ++ [B64.no_climate]) = Ok df
    /\ In (B64.mk_row B64.no_climate) df
    /\ B64.Earth3_Index (B64.mk_row B64.no_climate) = B64.of_Z 85
    /\ B64.isnan (B64.get (B64.mk_row B64.no_climate) "Climate") = true.
Proof.
  eexists. split; [reflexivity|].
  split; [do 6 right; left; reflexivity|].
  split; vm_compute; reflexivity.
Qed.

(** ** The global index *)

Lemma count_all (xs : list B64.float) :
  (forall x, In x xs -> B64.isnan x = false) ->
  B64.count xs = List.length xs /\ map B64.fill0 xs = xs.
Proof.
  unfold B64.count. induction xs as [|x xs IH]; intro H; [split; reflexivity|].
  destruct (IH (fun y Hy => H y (or_intror Hy))) as [Ic If].
  cbn [filter map]. unfold B64.fill0 at 1.
  rewrite (H x (or_introl eq_refl)). cbn [negb List.length].
  rewrite Ic, If. split; reflexivity.
Qed.

(** C10, the claim as written fails: with the indices 70.0 (five times)
    and 70.9 the arithmetic mean of the six indices rounds to 70.2 and
    the program's global index is 70.1. *)
Lemma global_index_not_rounded_mean :
  exists df : B64.DataFrame,
    B64.build_orgs B64.data_7015 = Ok df
    /\ map B64.Earth3_Index df
       = [B64.of_Z 70; B64.of_Z 70; B64.of_Z 70; B64.of_Z 70; B64.of_Z 70;
          B64.lit 709 10]
    /\ B64.global_index df = Ok (B64.lit 701 10)
    /\ round1 (mean_of (map B64.to_Q (map B64.Earth3_Index df))) == 702 # 10
    /\ B64.lit 701 10 <> B64.lit 702 10.
Proof.
  eexists. split; [reflexivity|].
  split; [vm_compute; reflexivity|].
  split; [vm_compute; reflexivity|].
  split; [vm_compute; reflexivity|].
  vm_compute. discriminate.
Qed.

(** C10, amended: the global index is computed from the per-record
    indices, each already rounded to one decimal, not from the raw
    metric values: for a frame of one to seven rows whose indices are
    numbers it is the binary64 sum of the indices in catalog order
    divided by their number, rounded again by [rint(10 x) / 10].  On
    the six records of the program it is 70.9.  On the six records of
    [data_drift] it is 70.0 while the mean of the thirty raw values
    rounds to 70.1. *)
Theorem global_index_binary64 :
  (forall df : B64.DataFrame,
     df <> [] -> (List.length df < 8)%nat ->
     (forall r, In r df -> B64.isnan (B64.Earth3_Index r) = false) ->
     B64.global_index df
     = Ok (B64.div
             (B64.rint
                (B64.mul
                   (B64.div (B64.np_sum (map B64.Earth3_Index df))
                      (B64.of_Z (Z.of_nat (List.length df))))
                   (B64.of_Z 10)))
             (B64.of_Z 10)))
  /\ B64.get_fake_orgs = Ok B64.ORGS_DF
  /\ B64.global_index B64.ORGS_DF = Ok (B64.lit 709 10)
  /\ (exists df : B64.DataFrame,
        B64.build_orgs B64.data_drift = Ok df
        /\ List.length df = 6%nat
        /\ B64.global_index df = Ok (B64.of_Z 70)
        /\ B64.to_Q (B64.of_Z 70) == 70
        /\ round1 (mean_of (B64.raw_values B64.data_drift)) == 701 # 10).
Proof.
  split.
  - intros df N L H.
    assert (Hx : forall x, In x (map B64.Earth3_Index df) ->
                           B64.isnan x = false).
    { intros x Hx. apply in_map_iff in Hx. destruct Hx as (r & <- & Hr).
      exact (H r Hr). }
    destruct (count_all _ Hx) as [Ec Ef].
    unfold B64.global_index. cbv zeta. rewrite Ec, Ef, length_map.
    destruct df as [|r df]; [contradiction N; reflexivity|].
    reflexivity.
  - split; [reflexivity|].
    split; [vm_compute; reflexivity|].
    eexists. split; [reflexivity|].
    split; [reflexivity|].
    split; [vm_compute; reflexivity|].
    split; vm_compute; reflexivity.
Qed.

Lemma global_index_binary64_witness :
  B64.global_index B64.ORGS_DF
  = Ok (B64.div
          (B64.rint
             (B64.mul
                (B64.div (B64.np_sum (map B64.Earth3_Index B64.ORGS_DF))
                   (B64.of_Z (Z.of_nat (List.length B64.ORGS_DF))))
                (B64.of_Z 10)))
          (B64.of_Z 10)).
Proof.
  apply (proj1 global_index_binary64 B64.ORGS_DF).
  - discriminate.
  - vm_compute. lia.
  - intros r Hin.
    repeat (destruct Hin as [<- | Hin]; [vm_compute; reflexivity|]).
    contradiction.
Defined.
